(** * Payment flow of [single_responsability/refactor_code.py]

    A shallow embedding of the six classes of the module
    ([CustomerValidator], [PaymentDataValidator], [Notifier],
    [TransactionLogger], [StripePaymentProcessor], [PaymentService]) and the
    properties of the payment flow they implement.

    Python dictionaries with string keys are finite maps, Python exceptions
    are an explicit error result, and the effects of the module (printing,
    appending to the log file, setting the Stripe key, calling Stripe) are
    state passing over a [world]. *)

From Stdlib Require Import ZArith String List.
From stdpp Require Import base gmap strings list pretty.

Open Scope string_scope.

(** ** Python values *)

(** The values a caller can put in [customer_data] and [payment_data]:
    [None], booleans, integers, strings, lists and dictionaries with string
    keys.  A string is a text given by its bytes in UTF-8, the encoding in
    which the standard output and the log file are written. *)
#[warnings="-register-all"]
Inductive pyval : Type :=
| PNone
| PBool (b : bool)
| PInt (z : Z)
| PStr (s : string)
| PList (l : list pyval)
| PDict (d : gmap string pyval).

Abbreviation pydict := (gmap string pyval).

(** Truth value of an object, as tested by [not x] and [if x]. *)
Definition truthy (v : pyval) : bool :=
  match v with
  | PNone => false
  | PBool b => b
  | PInt z => negb (Z.eqb z 0)
  | PStr s => match s with EmptyString => false | String _ _ => true end
  | PList l => match l with [] => false | _ :: _ => true end
  | PDict d => negb (Nat.eqb (size d) 0)
  end.

(** [d.get(k)]: the value under [k], or [None] when the key is absent. *)
Definition dict_get (d : pydict) (k : string) : pyval :=
  default PNone (d !! k).

(** ** Exceptions *)

(** The exception classes that occur in the module.  [ValueError] carries
    its message, [KeyError] the missing key, [OSError] the path that could
    not be opened, [StripeError] the detail reported by the payment
    provider.  The text of a [TypeError] is chosen by the interpreter and is
    not modelled.  [RecursionError] is what the interpreter raises when
    [str] goes too deep into nested lists and dictionaries. *)
Inductive exn : Type :=
| ValueError (msg : string)
| KeyError (key : string)
| TypeError
| OSError (path : string)
| StripeError (detail : string)
| RecursionError.

Definition is_ValueError (e : exn) : bool :=
  match e with ValueError _ => true | _ => false end.

Definition is_StripeError (e : exn) : bool :=
  match e with StripeError _ => true | _ => false end.

(** Text of an exception as [print] shows it.  The module only ever prints
    a [StripeError]; the text of the other classes is not modelled. *)
Definition exn_str (e : exn) : string :=
  match e with
  | StripeError detail => detail
  | ValueError msg => msg
  | KeyError _ | TypeError | OSError _ | RecursionError => ""
  end.

Inductive result (A : Type) : Type :=
| Ok (a : A)
| Raise (e : exn).

Arguments Ok {A} a.
Arguments Raise {A} e.

(** ** The world outside the program *)

(** Keyword arguments of [stripe.Charge.create]. *)
Record charge_request : Type := {
  amount : pyval;
  currency : string;
  source : pyval;
  description : string
}.

(** What the module can observe and change: the standard output (one entry
    per call of [print]: the text the call wrote, without the newline that
    ends it; a call that raised while it converted an argument leaves the
    text it had written so far), the files (path to contents), the paths
    that cannot be opened for appending, the process environment, the
    global [stripe.api_key], and the calls made to [stripe.Charge.create]
    with the key in force at the call. *)
Record world : Type := {
  stdout : list string;
  files : gmap string string;
  locked : gset string;
  environ : gmap string string;
  stripe_api_key : option string;
  stripe_calls : list (option string * charge_request)
}.

Definition set_stdout (f : list string -> list string) (w : world) : world :=
  {| stdout := f (stdout w); files := files w; locked := locked w;
     environ := environ w; stripe_api_key := stripe_api_key w;
     stripe_calls := stripe_calls w |}.

Definition set_files (f : gmap string string -> gmap string string)
    (w : world) : world :=
  {| stdout := stdout w; files := f (files w); locked := locked w;
     environ := environ w; stripe_api_key := stripe_api_key w;
     stripe_calls := stripe_calls w |}.

Definition set_stripe_api_key (k : option string) (w : world) : world :=
  {| stdout := stdout w; files := files w; locked := locked w;
     environ := environ w; stripe_api_key := k;
     stripe_calls := stripe_calls w |}.

Definition add_stripe_call (c : option string * charge_request)
    (w : world) : world :=
  {| stdout := stdout w; files := files w; locked := locked w;
     environ := environ w; stripe_api_key := stripe_api_key w;
     stripe_calls := (stripe_calls w ++ [c])%list |}.

(** The parts of the run-time that are not in the repository: what [str]
    gives for a list or a dictionary (a text, or the exception it raises,
    for instance on an integer it cannot convert or on a nesting that is
    too deep), and the answer of Stripe to a charge request made under a
    given key (a [Charge] object, read like a dictionary, or an
    exception). *)
Record runtime : Type := {
  container_str : pyval -> result string;
  charge_create : option string -> charge_request -> result pydict
}.

(** ** Computations: state passing with exceptions *)

(** A computation takes the world and gives a value or a raised exception,
    and the world it leaves.  The effects done before an exception stay. *)
Definition M (A : Type) : Type := world -> result A * world.

Definition ret {A} (a : A) : M A := fun w => (Ok a, w).

Definition raise {A} (e : exn) : M A := fun w => (Raise e, w).

Definition bind {A B} (m : M A) (k : A -> M B) : M B :=
  fun w =>
    match m w with
    | (Ok a, w') => k a w'
    | (Raise e, w') => (Raise e, w')
    end.

(** [try: body except C as e: handler e], where [handles] tells the
    instances of class [C]. *)
Definition try_except {A} (body : M A) (handles : exn -> bool)
    (handler : exn -> M A) : M A :=
  fun w =>
    match body w with
    | (Ok a, w') => (Ok a, w')
    | (Raise e, w') => if handles e then handler e w' else (Raise e, w')
    end.

Declare Scope py_scope.
Delimit Scope py_scope with py.
Notation "'let*' x := m 'in' k" := (bind m (fun x => k))
  (at level 10, x name, m at level 100, k at level 200) : py_scope.
Notation "m >> k" := (bind m (fun _ => k))
  (at level 65, right associativity) : py_scope.
Open Scope py_scope.

(** ** Built-in operations *)

(** The interpreter converts an integer to decimal text only when the text
    has at most 4300 digits, that is when the absolute value is below
    [10 ^ 4300].  The bit length decides all cases but one: an integer of
    at most 14284 bits is below that bound, one of more than 14285 bits is
    not. *)
Definition int_max_str_digits : Z := 4300.

Definition int_str_fits (z : Z) : bool :=
  let bits := Z.log2 (Z.abs z) in
  if (bits <? 14284)%Z then true
  else if (14284 <? bits)%Z then false
  else (Z.abs z <? 10 ^ int_max_str_digits)%Z.

Definition int_str_limit : string :=
  "Exceeds the limit (4300 digits) for integer string conversion; "
  +:+ "use sys.set_int_max_str_digits() to increase the limit".

(** [str(v)], which is also what an f-string and [print] apply to a value:
    the text, or the exception raised instead. *)
Definition py_str (rt : runtime) (v : pyval) : result string :=
  match v with
  | PNone => Ok "None"
  | PBool true => Ok "True"
  | PBool false => Ok "False"
  | PInt z =>
    if int_str_fits z then Ok (pretty z)
    else Raise (ValueError int_str_limit)
  | PStr s => Ok s
  | PList _ | PDict _ => container_str rt v
  end.

(** The conversion as a step of a computation. *)
Definition str_of (rt : runtime) (v : pyval) : M string :=
  fun w => (py_str rt v, w).

(** [print(a1, ..., an)] on texts: the arguments separated by one space. *)
Definition print (args : list string) : M unit :=
  fun w => (Ok tt, set_stdout (fun out => (out ++ [String.concat " " args])%list) w).

(** [print(a1, ..., an)] on values.  The arguments are converted and
    written one after the other, each but the first after a space.  When a
    conversion raises, what was written before it stays: the entry of the
    call is then the text written so far, and there is no entry when
    nothing was written. *)
Fixpoint write_args (rt : runtime) (first : bool) (args : list pyval)
    (written : string) : result unit * string :=
  match args with
  | [] => (Ok tt, written)
  | v :: rest =>
    let written := if first then written else written +:+ " " in
    match py_str rt v with
    | Ok text => write_args rt false rest (written +:+ text)
    | Raise e => (Raise e, written)
    end
  end.

Definition print_values (rt : runtime) (args : list pyval) : M unit :=
  fun w =>
    match write_args rt true args "" with
    | (Ok _, text) =>
      (Ok tt, set_stdout (fun out => (out ++ [text])%list) w)
    | (Raise e, EmptyString) => (Raise e, w)
    | (Raise e, text) =>
      (Raise e, set_stdout (fun out => (out ++ [text])%list) w)
    end.

(** [d[k]] on a dictionary. *)
Definition dict_getitem (d : pydict) (k : string) : M pyval :=
  match d !! k with
  | Some v => ret v
  | None => raise (KeyError k)
  end.

(** [v[k]] with a string [k]: a dictionary is looked up, a list or a string
    refuses a string index, the other values have no subscript. *)
Definition getitem (v : pyval) (k : string) : M pyval :=
  match v with
  | PDict d => dict_getitem d k
  | _ => raise TypeError
  end.

Definition is_str (k : string) (v : pyval) : bool :=
  match v with
  | PStr s => String.eqb s k
  | _ => false
  end.

(** [k in v] with a string [k]: a key of a dictionary, an element of a list,
    a substring of a string; the other values are not containers. *)
Definition contains (k : string) (v : pyval) : M bool :=
  match v with
  | PDict d => ret (bool_decide (is_Some (d !! k)))
  | PList l => ret (existsb (is_str k) l)
  | PStr s => ret (bool_decide (is_Some (String.index 0 k s)))
  | PNone | PBool _ | PInt _ => raise TypeError
  end.

(** ["literal" + v]: only a string can be appended to a string. *)
Definition str_concat (prefix : string) (v : pyval) : M string :=
  match v with
  | PStr s => ret (prefix +:+ s)
  | _ => raise TypeError
  end.

(** [os.getenv(name)]. *)
Definition getenv (name : string) : M (option string) :=
  fun w => (Ok (environ w !! name), w).

(** [stripe.api_key = k]. *)
Definition assign_api_key (k : option string) : M unit :=
  fun w => (Ok tt, set_stripe_api_key k w).

(** [stripe.Charge.create(...)]: the request goes to the provider under the
    key in force, and the provider's answer is the outcome. *)
Definition stripe_Charge_create (rt : runtime) (req : charge_request)
    : M pydict :=
  fun w =>
    (charge_create rt (stripe_api_key w) req,
     add_stripe_call (stripe_api_key w, req) w).

Definition newline : string := String (Ascii.ascii_of_nat 10) EmptyString.

(** [open(path, "a")]: fails on a path that cannot be opened, and creates
    the file when there is none. *)
Definition open_append (path : string) : M string :=
  fun w =>
    if bool_decide (path ∈ locked w) then (Raise (OSError path), w)
    else (Ok path,
          set_files (fun fs => <[path := default "" (fs !! path)]> fs) w).

(** [log_file.write(text)] on a file opened for appending. *)
Definition file_write (path : string) (text : string) : M unit :=
  fun w =>
    (Ok tt,
     set_files (fun fs => <[path := default "" (fs !! path) +:+ text]> fs) w).

(** ** The classes of the module *)

Module CustomerValidator.

Definition validate (customer_data : pydict) : M unit :=
  (if negb (truthy (dict_get customer_data "name")) then
     print ["Invalid customer data: missing name"] >>
     raise (ValueError "Invalid customer data: missing name")
   else ret tt) >>
  (if negb (truthy (dict_get customer_data "contact_info")) then
     print ["Invalid customer data: missing contact info"] >>
     raise (ValueError "Invalid customer data: missing contact info")
   else ret tt).

End CustomerValidator.

Module PaymentDataValidator.

Definition validate (payment_data : pydict) : M unit :=
  if negb (truthy (dict_get payment_data "source")) then
    print ["Invalid payment data"] >>
    raise (ValueError "Invalid payment data")
  else ret tt.

End PaymentDataValidator.

Module Notifier.

(** The [MIMEText] message built for the e-mail channel.  The lines that
    would hand it to an SMTP server are commented out in the source, so the
    message is built and dropped. *)
Record mime_text : Type := {
  payload : string;
  subject : string;
  from : string;
  to : pyval
}.

Definition send_confirmation (rt : runtime) (customer_data : pydict)
    : M unit :=
  let* contact_info := dict_getitem customer_data "contact_info" in
  let* has_email := contains "email" contact_info in
  if has_email then
    let* contact_info := dict_getitem customer_data "contact_info" in
    let* address := getitem contact_info "email" in
    let msg := {| payload := "Thank you for your payment.";
                  subject := "Payment Confirmation";
                  from := "no-reply@example.com";
                  to := address |} in
    let* contact_info := dict_getitem customer_data "contact_info" in
    let* address := getitem contact_info "email" in
    print_values rt [PStr "Email sent to"; address]
  else
    let* contact_info := dict_getitem customer_data "contact_info" in
    let* has_phone := contains "phone" contact_info in
    if has_phone then
      let* contact_info := dict_getitem customer_data "contact_info" in
      let* phone_number := getitem contact_info "phone" in
      let sms_gateway := "the custom SMS Gateway" in
      let* number := str_of rt phone_number in
      print ["send the sms using " +:+ sms_gateway +:+ ": SMS sent to "
             +:+ number +:+ ": Thank you for your payment."]
    else ret tt.

End Notifier.

Module TransactionLogger.

Definition log (rt : runtime) (customer_data payment_data charge : pydict)
    : M unit :=
  let* log_file := open_append "transactions.log" in
  let* name := dict_getitem customer_data "name" in
  let* name_text := str_of rt name in
  let* paid := dict_getitem payment_data "amount" in
  let* paid_text := str_of rt paid in
  file_write log_file (name_text +:+ " paid " +:+ paid_text +:+ newline) >>
  let* status := dict_getitem charge "status" in
  let* status_text := str_of rt status in
  file_write log_file ("Payment status: " +:+ status_text +:+ newline).

End TransactionLogger.

Module StripePaymentProcessor.

Definition process_transaction (rt : runtime)
    (customer_data payment_data : pydict) : M pydict :=
  let* key := getenv "STRIPE_API_KEY" in
  assign_api_key key >>
  let* charge :=
    try_except
      (let* paid := dict_getitem payment_data "amount" in
       let* token := dict_getitem payment_data "source" in
       let* name := dict_getitem customer_data "name" in
       let* text := str_concat "Charge for " name in
       let* charge :=
         stripe_Charge_create rt
           {| amount := paid; currency := "usd"; source := token;
              description := text |} in
       print ["Payment successful"] >>
       ret charge)
      is_StripeError
      (fun e => print ["Payment failed:"; exn_str e] >> raise e) in
  ret charge.

End StripePaymentProcessor.

Module PaymentService.

(** The five collaborators are attributes of the service, reached through
    [self]; an instance is any choice of them. *)
Record t : Type := {
  customer_validator : pydict -> M unit;
  payment_validator : pydict -> M unit;
  payment_processor : pydict -> pydict -> M pydict;
  notifier : pydict -> M unit;
  logger : pydict -> pydict -> pydict -> M unit
}.

(** [PaymentService()]: the attributes have the values given in the class
    body. *)
Definition new (rt : runtime) : t :=
  {| customer_validator := CustomerValidator.validate;
     payment_validator := PaymentDataValidator.validate;
     payment_processor := StripePaymentProcessor.process_transaction rt;
     notifier := Notifier.send_confirmation rt;
     logger := TransactionLogger.log rt |}.

Definition process_transaction (self : t)
    (customer_data payment_data : pydict) : M pydict :=
  try_except (customer_validator self customer_data)
    is_ValueError (fun e => raise e) >>
  try_except (payment_validator self payment_data)
    is_ValueError (fun e => raise e) >>
  try_except
    (let* charge := payment_processor self customer_data payment_data in
     notifier self customer_data >>
     logger self customer_data payment_data charge >>
     ret charge)
    is_StripeError (fun e => raise e).

End PaymentService.

(** ** What an observer sees *)

(** The two channels of [Notifier] are stubbed by [print]: a dispatched
    e-mail is an entry of the standard output that starts with
    [Email sent to], a dispatched SMS one that starts with
    [send the sms using]. *)
Definition is_email (entry : string) : bool :=
  String.prefix "Email sent to " entry.

Definition is_sms (entry : string) : bool :=
  String.prefix "send the sms using " entry.

Definition emails_sent (w : world) : nat :=
  length (List.filter is_email (stdout w)).

Definition sms_sent (w : world) : nat :=
  length (List.filter is_sms (stdout w)).

(** Contents of the transaction log; an absent file has no contents. *)
Definition log_text (w : world) : string :=
  default "" (files w !! "transactions.log").

(** ** A run of the demonstration data *)

Definition customer_data_with_email : pydict :=
  <["name" := PStr "John Doe"]>
    (<["contact_info" := PDict (<["email" := PStr "e@mail.com"]> ∅)]> ∅).

Definition customer_data_with_phone : pydict :=
  <["name" := PStr "Platzi Python"]>
    (<["contact_info" := PDict (<["phone" := PStr "1234567890"]> ∅)]> ∅).

Definition demo_payment (paid : Z) (token : string) : pydict :=
  <["amount" := PInt paid]>
    (<["source" := PStr token]> (<["cvv" := PInt 123]> ∅)).

Definition succeeded : pydict :=
  <["status" := PStr "succeeded"]> (<["amount" := PInt 500]> ∅).

(** A provider that blocks the token [tok_radarBlock] and accepts the
    others. *)
Definition demo_runtime : runtime :=
  {| container_str := fun _ => Ok "";
     charge_create := fun _ req =>
       if is_str "tok_radarBlock" (source req)
       then Raise (StripeError "Your card was declined.")
       else Ok succeeded |}.


Definition empty_world : world :=
  {| stdout := []; files := ∅; locked := ∅; environ := ∅;
     stripe_api_key := None; stripe_calls := [] |}.

(** An integer of 14286 bits, which has more than 4300 decimal digits. *)
Definition long_int : pyval := PInt (Z.shiftl 1 14285).


Definition customer_data_odd_contact : pydict :=
  <["name" := PStr "John Doe"]> (<["contact_info" := PInt 5]> ∅).

Definition customer_data_no_contact : pydict :=
  <["name" := PStr "John Doe"]> ∅.

(** A payment whose amount is the long integer. *)
Definition long_payment : pydict :=
  <["amount" := long_int]> (<["source" := PStr "tok_mastercard"]> ∅).


(** ** The demonstration script *)

(** [str(e)] for an exception caught by the script: the message the program
    gave to a [ValueError], the detail of a [StripeError]; the text of the
    other classes is made by the interpreter, which [interp] stands for. *)
Definition exception_text (interp : exn -> string) (e : exn) : string :=
  match e with
  | ValueError msg => msg
  | StripeError detail => detail
  | KeyError _ | TypeError | OSError _ | RecursionError => interp e
  end.

(** The body of [if __name__ == "__main__"]: two payments made without a
    guard, and a third one inside [try ... except Exception]. *)
Definition main (rt : runtime) (interp : exn -> string) : M unit :=
  let payment_processor := PaymentService.new rt in
  let payment_data := demo_payment 500 "tok_mastercard" in
  PaymentService.process_transaction payment_processor
    customer_data_with_email payment_data >>
  PaymentService.process_transaction payment_processor
    customer_data_with_phone payment_data >>
  (let payment_data := demo_payment 700 "tok_radarBlock" in
   try_except
     (PaymentService.process_transaction payment_processor
        customer_data_with_email payment_data >> ret tt)
     (fun _ => true)
     (fun e =>
        print ["Error con el procesamiento: " +:+ exception_text interp e])).

(** ** Vocabulary of the properties *)

(** A field is absent or empty when the key is not in the dictionary or its
    value is false as a truth value: the empty string, the empty dictionary
    or list, and also [None], [False] and [0]. *)
Definition absent_or_empty (d : pydict) (k : string) : Prop :=
  d !! k = None \/ exists v, d !! k = Some v /\ truthy v = false.

Definition present_nonempty (d : pydict) (k : string) : Prop :=
  exists v, d !! k = Some v /\ truthy v = true.


(** A computation fails in a world when it raises there. *)
Definition fails {A} (m : M A) (w : world) : Prop :=
  exists e w', m w = (Raise e, w').

(** The world after one more call of [print]. *)
Definition printed (entry : string) (w : world) : world :=
  set_stdout (fun out => (out ++ [entry])%list) w.

(** The diagnostic entries of the validators, which are also the messages
    of their exceptions. *)
Definition missing_name : string := "Invalid customer data: missing name".

Definition missing_contact : string :=
  "Invalid customer data: missing contact info".

Definition invalid_payment : string := "Invalid payment data".

(** The entries the two channels of the notifier print, for the text of
    the address and of the phone number, and the entry the e-mail channel
    leaves when the address cannot be converted. *)
Definition email_entry (address : string) : string :=
  "Email sent to " +:+ address.

Definition sms_entry (number : string) : string :=
  "send the sms using the custom SMS Gateway: SMS sent to "
  +:+ number +:+ ": Thank you for your payment.".

Definition email_started : string := "Email sent to ".

(** The world after [text] was appended to the transaction log. *)
Definition appended (text : string) (w : world) : world :=
  set_files (fun fs => <["transactions.log" := log_text w +:+ text]> fs) w.

(** The first line and the second line of a log record, for the texts of
    the name, the amount and the status. *)
Definition paid_line (n a : string) : string := n +:+ " paid " +:+ a.

Definition status_line (s : string) : string := "Payment status: " +:+ s.

(** A charge was obtained: both validations passed and the charge step
    returned a charge. *)
Definition charge_obtained (rt : runtime) (cd pd : pydict) (w : world)
    : Prop :=
  CustomerValidator.validate cd w = (Ok tt, w)
  /\ PaymentDataValidator.validate pd w = (Ok tt, w)
  /\ exists charge w',
       StripePaymentProcessor.process_transaction rt cd pd w =
         (Ok charge, w').

(** Nothing was produced: the call raised, no file changed and no
    notification was dispatched. *)
Definition nothing_produced (out : result pydict * world) (w : world)
    : Prop :=
  (exists e, out.1 = Raise e)
  /\ files out.2 = files w
  /\ emails_sent out.2 = emails_sent w
  /\ sms_sent out.2 = sms_sent w.

(** [k in v] on a string or a list, as a truth value. *)
Definition mentions (k : string) (v : pyval) : bool :=
  match v with
  | PStr s => bool_decide (is_Some (String.index 0 k s))
  | PList l => existsb (is_str k) l
  | _ => false
  end.

(** A contact info that is a string or a list and mentions neither
    [email] nor [phone]. *)
Definition quiet_contact (v : pyval) : bool :=
  match v with
  | PStr _ | PList _ => negb (mentions "email" v) && negb (mentions "phone" v)
  | _ => false
  end.

(** The two lines of one log record. *)
Definition log_record (n a s : string) : string :=
  paid_line n a +:+ newline +:+ status_line s +:+ newline.

(** The request the processor sends for a name, an amount and a source. *)
Definition request_for (n : string) (a s : pyval) : charge_request :=
  {| amount := a; currency := "usd"; source := s;
     description := "Charge for " +:+ n |}.

(** The key the processor reads from the environment. *)
Definition env_key (w : world) : option string :=
  environ w !! "STRIPE_API_KEY".

(** The world after the processor sent [req] and the provider accepted. *)
Definition charged (req : charge_request) (w : world) : world :=
  printed "Payment successful"
    (add_stripe_call (env_key w, req) (set_stripe_api_key (env_key w) w)).

(** The result of the notifier on a contact dictionary and the world it
    leaves.  The e-mail channel has written [Email sent to] and a space
    when the conversion of the address raises; the SMS channel converts
    the number before it prints anything. *)
Definition notify_result (rt : runtime) (ci : pydict) : result unit :=
  match ci !! "email", ci !! "phone" with
  | Some a, _ =>
    match py_str rt a with Ok _ => Ok tt | Raise e => Raise e end
  | None, Some p =>
    match py_str rt p with Ok _ => Ok tt | Raise e => Raise e end
  | None, None => Ok tt
  end.

Definition notified (rt : runtime) (ci : pydict) (w : world) : world :=
  match ci !! "email", ci !! "phone" with
  | Some a, _ =>
    match py_str rt a with
    | Ok text => printed (email_entry text) w
    | Raise _ => printed email_started w
    end
  | None, Some p =>
    match py_str rt p with
    | Ok text => printed (sms_entry text) w
    | Raise _ => w
    end
  | None, None => w
  end.



(** The three requests of the script. *)
Definition first_request : charge_request :=
  request_for "John Doe" (PInt 500) (PStr "tok_mastercard").





(** From [w] to [w'] the log has only grown at its end and no other file
    has changed. *)
Definition log_extended (w w' : world) : Prop :=
  (exists text, log_text w' = log_text w +:+ text)
  /\ forall path : string, path <> "transactions.log" ->
       files w' !! path = files w !! path.


(** ** The limit on the conversion of integers *)

Lemma pow2_below_limit :
  (2 ^ 14284 <? 10 ^ int_max_str_digits)%Z = true.
Proof. vm_compute. reflexivity. Qed.

Lemma limit_below_pow2 :
  (10 ^ int_max_str_digits <? 2 ^ 14285)%Z = true.
Proof. vm_compute. reflexivity. Qed.

Open Scope Z_scope.

(** The test on the bit length is the test on the number of digits: an
    integer is converted exactly when its absolute value is below
    [10 ^ 4300]. *)
Lemma int_str_fits_spec (z : Z) :
  int_str_fits z = (Z.abs z <? 10 ^ int_max_str_digits)%Z.
Proof.
  unfold int_str_fits. cbv zeta.
  pose proof (Z.abs_nonneg z) as Hnn.
  generalize dependent (Z.abs z). intros a Hnn.
  pose proof pow2_below_limit as Hlow. apply Z.ltb_lt in Hlow.
  pose proof limit_below_pow2 as Hhigh. apply Z.ltb_lt in Hhigh.
  remember (10 ^ int_max_str_digits)%Z as limit eqn:Elimit.
  remember (2 ^ 14284)%Z as low eqn:Elow.
  remember (2 ^ 14285)%Z as high eqn:Ehigh.
  destruct (Z.ltb_spec (Z.log2 a) 14284) as [Hb | Hb].
  - symmetry. apply Z.ltb_lt.
    destruct (Z.eq_dec a 0) as [-> | Hne].
    + apply Z.lt_trans with low; [|exact Hlow].
      subst low. apply Z.pow_pos_nonneg; [reflexivity | discriminate].
    + apply Z.lt_trans with low; [|exact Hlow].
      subst low. apply Z.log2_lt_pow2; [|exact Hb].
      destruct (Z.le_gt_cases a 0) as [Hle | Hgt]; [|exact Hgt].
      exfalso. apply Hne. now apply Z.le_antisymm.
  - destruct (Z.ltb_spec 14284 (Z.log2 a)) as [Hc | Hc]; [|reflexivity].
    symmetry. apply Z.ltb_ge.
    apply Z.le_trans with high; [now apply Z.lt_le_incl|].
    subst high. apply Z.log2_le_pow2.
    + destruct (Z.le_gt_cases a 0) as [Hle | Hgt]; [|exact Hgt].
      exfalso. rewrite (Z.log2_nonpos a Hle) in Hc. discriminate Hc.
    + change 14285%Z with (Z.succ 14284). now apply Z.le_succ_l.
Qed.

Close Scope Z_scope.

(** [str] of an integer: its decimal text below the limit, [ValueError]
    from the limit on. *)
Lemma py_str_int rt (z : Z) :
  py_str rt (PInt z) =
    if (Z.abs z <? 10 ^ int_max_str_digits)%Z then Ok (pretty z)
    else Raise (ValueError int_str_limit).
Proof. cbn [py_str]. now rewrite int_str_fits_spec. Qed.

Example py_str_long_int :
  py_str demo_runtime long_int = Raise (ValueError int_str_limit).
Proof. reflexivity. Qed.

(** ** Lemmas on the vocabulary *)

Lemma absent_or_empty_get (d : pydict) (k : string) :
  absent_or_empty d k <-> truthy (dict_get d k) = false.
Proof.
  unfold absent_or_empty, dict_get.
  destruct (d !! k) as [v|] eqn:E; simpl.
  - split.
    + intros [H | (v' & Hv & Ht)]; [discriminate | congruence].
    + intros Ht. right. eauto.
  - split; [reflexivity | intros _; now left].
Qed.

Lemma present_nonempty_get (d : pydict) (k : string) :
  present_nonempty d k <-> truthy (dict_get d k) = true.
Proof.
  unfold present_nonempty, dict_get.
  destruct (d !! k) as [v|] eqn:E; simpl.
  - split.
    + intros (v' & Hv & Ht). congruence.
    + intros Ht. eauto.
  - split; [intros (v' & Hv & _); discriminate | discriminate].
Qed.

Lemma present_iff_not_absent (d : pydict) (k : string) :
  present_nonempty d k <-> ~ absent_or_empty d k.
Proof.
  rewrite present_nonempty_get, absent_or_empty_get.
  destruct (truthy (dict_get d k)); split; congruence.
Qed.

(** On a string field, empty is the empty string; on a dictionary field,
    the dictionary without keys. *)
Lemma truthy_str (s : string) : truthy (PStr s) = false <-> s = "".
Proof. destruct s; simpl; split; congruence. Qed.


(** ** The validators *)

(** The outcome of [CustomerValidator.validate] by the truth values of the
    two fields. *)
Lemma customer_validate_eq (cd : pydict) (w : world) :
  CustomerValidator.validate cd w =
    if negb (truthy (dict_get cd "name")) then
      (Raise (ValueError missing_name), printed missing_name w)
    else if negb (truthy (dict_get cd "contact_info")) then
      (Raise (ValueError missing_contact), printed missing_contact w)
    else (Ok tt, w).
Proof.
  unfold CustomerValidator.validate.
  destruct (truthy (dict_get cd "name"));
    destruct (truthy (dict_get cd "contact_info")); reflexivity.
Qed.

Lemma payment_validate_eq (pd : pydict) (w : world) :
  PaymentDataValidator.validate pd w =
    if negb (truthy (dict_get pd "source")) then
      (Raise (ValueError invalid_payment), printed invalid_payment w)
    else (Ok tt, w).
Proof.
  unfold PaymentDataValidator.validate.
  destruct (truthy (dict_get pd "source")); reflexivity.
Qed.

(** C3, as the code has it: for every customer_data,
    [CustomerValidator.validate] raises the missing-name [ValueError] when
    [name] is absent or empty; raises the missing-contact-info [ValueError]
    when [name] is present and non-empty and [contact_info] is absent or
    empty; and returns normally, leaving the world as it was, when both are
    present and non-empty.  The name is tested first, so it decides the
    error when both fields are missing. *)
Theorem C3_customer_validate_cases (cd : pydict) (w : world) :
  (absent_or_empty cd "name" ->
     CustomerValidator.validate cd w =
       (Raise (ValueError "Invalid customer data: missing name"),
        printed "Invalid customer data: missing name" w))
  /\ (present_nonempty cd "name" -> absent_or_empty cd "contact_info" ->
     CustomerValidator.validate cd w =
       (Raise (ValueError "Invalid customer data: missing contact info"),
        printed "Invalid customer data: missing contact info" w))
  /\ (present_nonempty cd "name" -> present_nonempty cd "contact_info" ->
     CustomerValidator.validate cd w = (Ok tt, w)).
Proof.
  rewrite customer_validate_eq.
  repeat split.
  - intros Hn%absent_or_empty_get. now rewrite Hn.
  - intros Hn%present_nonempty_get Hc%absent_or_empty_get.
    now rewrite Hn, Hc.
  - intros Hn%present_nonempty_get Hc%present_nonempty_get.
    now rewrite Hn, Hc.
Qed.

(** C3, read on every customer_data, fails on the empty dictionary:
    [contact_info] is absent, and the error raised is the one for the name,
    not the one for the contact info. *)
Lemma C3_both_missing_reports_name :
  absent_or_empty (∅ : pydict) "contact_info"
  /\ (CustomerValidator.validate ∅ empty_world).1 =
       Raise (ValueError "Invalid customer data: missing name")
  /\ (CustomerValidator.validate ∅ empty_world).1 <>
       Raise (ValueError "Invalid customer data: missing contact info").
Proof.
  split; [now left | split; [reflexivity | discriminate]].
Qed.

(** The three cases of C3 on data of the expected types. *)
Example customer_validate_empty_name :
  (CustomerValidator.validate
     (<["name" := PStr ""]> customer_data_with_email) empty_world).1 =
    Raise (ValueError "Invalid customer data: missing name").
Proof. reflexivity. Qed.

Example customer_validate_empty_contact :
  (CustomerValidator.validate
     (<["contact_info" := PDict ∅]> customer_data_with_email) empty_world).1 =
    Raise (ValueError "Invalid customer data: missing contact info").
Proof. reflexivity. Qed.

Example customer_validate_complete :
  CustomerValidator.validate customer_data_with_phone empty_world =
    (Ok tt, empty_world).
Proof. reflexivity. Qed.

(** Changing or removing a key the validator does not read changes
    nothing. *)
Lemma dict_get_insert_ne (d : pydict) (k k' : string) (v : pyval) :
  k <> k' -> dict_get (<[k := v]> d) k' = dict_get d k'.
Proof. intros H. unfold dict_get. now rewrite lookup_insert_ne. Qed.

Lemma dict_get_delete_ne (d : pydict) (k k' : string) :
  k <> k' -> dict_get (delete k d) k' = dict_get d k'.
Proof. intros H. unfold dict_get. now rewrite lookup_delete_ne. Qed.

(** C4: for every payment_data, [PaymentDataValidator.validate] raises the
    invalid-payment-data [ValueError] when [source] is absent or empty and
    returns normally otherwise; the [amount] field has no part in the
    outcome: any value put under [amount], and the removal of [amount],
    leave the outcome as it is. *)
Theorem C4_payment_validate_source_only (pd : pydict) (w : world) :
  (absent_or_empty pd "source" ->
     PaymentDataValidator.validate pd w =
       (Raise (ValueError "Invalid payment data"),
        printed "Invalid payment data" w))
  /\ (~ absent_or_empty pd "source" ->
     PaymentDataValidator.validate pd w = (Ok tt, w))
  /\ (forall v : pyval,
     PaymentDataValidator.validate (<["amount" := v]> pd) w =
     PaymentDataValidator.validate pd w)
  /\ PaymentDataValidator.validate (delete "amount" pd) w =
     PaymentDataValidator.validate pd w.
Proof.
  rewrite !payment_validate_eq.
  repeat split.
  - intros Hs%absent_or_empty_get. now rewrite Hs.
  - intros Hs%present_iff_not_absent%present_nonempty_get. now rewrite Hs.
  - intros v. rewrite payment_validate_eq.
    now rewrite dict_get_insert_ne by discriminate.
  - now rewrite dict_get_delete_ne by discriminate.
Qed.

(** A negative amount, a string amount and no amount at all pass; an empty
    source does not, whatever the amount. *)
Example payment_validate_bad_amounts :
  PaymentDataValidator.validate (demo_payment (-700) "tok") empty_world =
    (Ok tt, empty_world)
  /\ PaymentDataValidator.validate
       (<["amount" := PStr "a lot"]> (demo_payment 1 "tok")) empty_world =
    (Ok tt, empty_world)
  /\ PaymentDataValidator.validate (<["source" := PStr "tok"]> ∅) empty_world =
    (Ok tt, empty_world)
  /\ (PaymentDataValidator.validate (demo_payment 500 "") empty_world).1 =
    Raise (ValueError "Invalid payment data").
Proof. repeat split. Qed.

(** ** The notifier *)

Lemma is_email_email_entry t : is_email (email_entry t) = true.
Proof. unfold is_email, email_entry. simpl. now destruct t. Qed.



Lemma is_sms_sms_entry t : is_sms (sms_entry t) = true.
Proof.
  unfold is_sms, sms_entry. simpl.
  now destruct (t +:+ ": Thank you for your payment.").
Qed.



Lemma emails_sent_printed (entry : string) (w : world) :
  emails_sent (printed entry w) =
    (if is_email entry then 1 else 0) + emails_sent w.
Proof.
  unfold emails_sent, printed. simpl.
  rewrite List.filter_app, List.length_app. simpl.
  destruct (is_email entry); simpl; lia.
Qed.

Lemma sms_sent_printed (entry : string) (w : world) :
  sms_sent (printed entry w) = (if is_sms entry then 1 else 0) + sms_sent w.
Proof.
  unfold sms_sent, printed. simpl.
  rewrite List.filter_app, List.length_app. simpl.
  destruct (is_sms entry); simpl; lia.
Qed.

(** [print("Email sent to", a)]: the whole entry, or the entry cut after
    the space when the address cannot be converted. *)
Lemma print_values_email rt (a : pyval) (w : world) :
  print_values rt [PStr "Email sent to"; a] w =
    match py_str rt a with
    | Ok text => (Ok tt, printed (email_entry text) w)
    | Raise e => (Raise e, printed email_started w)
    end.
Proof.
  unfold print_values, write_args. cbn [py_str].
  destruct (py_str rt a) as [text|e]; reflexivity.
Qed.

(** [send_confirmation] on a customer whose contact info is a dictionary. *)
Lemma send_confirmation_dict rt (cd ci : pydict) (w : world) :
  cd !! "contact_info" = Some (PDict ci) ->
  Notifier.send_confirmation rt cd w =
    (notify_result rt ci, notified rt ci w).
Proof.
  intros Hci. unfold Notifier.send_confirmation, dict_getitem.
  rewrite Hci. unfold bind, ret, raise, str_of, notify_result, notified.
  cbn [contains getitem]. unfold dict_getitem, ret.
  destruct (ci !! "email") as [a|]; cbn [bool_decide decide_rel].
  - rewrite bool_decide_eq_true_2 by eauto.
    rewrite print_values_email. now destruct (py_str rt a).
  - rewrite bool_decide_eq_false_2 by (intros [x Hx]; discriminate).
    destruct (ci !! "phone") as [p|].
    + rewrite bool_decide_eq_true_2 by eauto.
      now destruct (py_str rt p).
    + now rewrite bool_decide_eq_false_2 by (intros [x Hx]; discriminate).
Qed.





Example send_confirmation_phone_only :
  Notifier.send_confirmation demo_runtime customer_data_with_phone
    empty_world =
  (Ok tt,
   printed
     ("send the sms using the custom SMS Gateway: SMS sent to 1234567890: "
      +:+ "Thank you for your payment.") empty_world).
Proof. reflexivity. Qed.

Example send_confirmation_no_channel :
  Notifier.send_confirmation demo_runtime
    (<["contact_info" := PDict ∅]> customer_data_with_email) empty_world =
  (Ok tt, empty_world).
Proof. reflexivity. Qed.

(** A phone number that cannot be converted: the text of the SMS is built
    before [print] is called, so nothing is written. *)
Example send_confirmation_long_phone :
  Notifier.send_confirmation demo_runtime
    (<["contact_info" := PDict (<["phone" := long_int]> ∅)]>
       customer_data_no_contact) empty_world =
  (Raise (ValueError int_str_limit), empty_world).
Proof. reflexivity. Qed.



(** With an address that cannot be converted the e-mail channel is still
    the one used: the entry is cut after the space and the phone is left
    alone. *)
Example send_confirmation_long_email_with_phone :
  Notifier.send_confirmation demo_runtime
    (<["contact_info" :=
         PDict (<["email" := long_int]>
                  (<["phone" := PStr "1234567890"]> ∅))]>
       customer_data_no_contact) empty_world =
  (Raise (ValueError int_str_limit), printed "Email sent to " empty_world).
Proof. reflexivity. Qed.

(** ** The transaction logger *)

Lemma append_assoc (x y z : string) : (x +:+ y) +:+ z = x +:+ y +:+ z.
Proof.
  induction x as [|c x IH]; [reflexivity | exact (f_equal (String c) IH)].
Qed.

Lemma append_empty_r (x : string) : x +:+ "" = x.
Proof.
  induction x as [|c x IH]; [reflexivity | exact (f_equal (String c) IH)].
Qed.

Lemma log_text_appended (text : string) (w : world) :
  log_text (appended text w) = log_text w +:+ text.
Proof. unfold log_text, appended. simpl. now rewrite lookup_insert_eq. Qed.

Lemma appended_appended (t1 t2 : string) (w : world) :
  appended t2 (appended t1 w) = appended (t1 +:+ t2) w.
Proof.
  unfold appended at 1. rewrite log_text_appended.
  unfold appended, set_files. simpl.
  now rewrite insert_insert_eq, append_assoc.
Qed.

Lemma open_append_eq (w : world) :
  open_append "transactions.log" w =
    if bool_decide ("transactions.log" ∈ locked w)
    then (Raise (OSError "transactions.log"), w)
    else (Ok "transactions.log", appended "" w).
Proof.
  unfold open_append, appended, log_text. now rewrite append_empty_r.
Qed.

Lemma file_write_eq (text : string) (w : world) :
  file_write "transactions.log" text w = (Ok tt, appended text w).
Proof. reflexivity. Qed.

(** Every outcome of [TransactionLogger.log]: the file is opened first;
    the name is read and converted, then the amount, and the first line is
    written; then the status is read and converted, and the second line is
    written. *)
Lemma log_eq rt (cd pd ch : pydict) (w : world) :
  TransactionLogger.log rt cd pd ch w =
    if bool_decide ("transactions.log" ∈ locked w)
    then (Raise (OSError "transactions.log"), w)
    else
      match cd !! "name" with
      | None => (Raise (KeyError "name"), appended "" w)
      | Some n =>
        match py_str rt n with
        | Raise e => (Raise e, appended "" w)
        | Ok tn =>
          match pd !! "amount" with
          | None => (Raise (KeyError "amount"), appended "" w)
          | Some a =>
            match py_str rt a with
            | Raise e => (Raise e, appended "" w)
            | Ok ta =>
              match ch !! "status" with
              | None =>
                (Raise (KeyError "status"),
                 appended (paid_line tn ta +:+ newline) w)
              | Some s =>
                match py_str rt s with
                | Raise e =>
                  (Raise e, appended (paid_line tn ta +:+ newline) w)
                | Ok ts => (Ok tt, appended (log_record tn ta ts) w)
                end
              end
            end
          end
        end
      end.
Proof.
  unfold TransactionLogger.log, bind. rewrite open_append_eq.
  destruct (bool_decide _); [reflexivity|].
  unfold dict_getitem, str_of.
  destruct (cd !! "name") as [n|]; [|reflexivity].
  unfold ret at 1. destruct (py_str rt n) as [tn|e]; [|reflexivity].
  destruct (pd !! "amount") as [a|]; [|reflexivity].
  unfold ret at 1. destruct (py_str rt a) as [ta|e]; [|reflexivity].
  rewrite file_write_eq, appended_appended.
  assert (Hline : "" +:+ tn +:+ " paid " +:+ ta +:+ newline =
                  paid_line tn ta +:+ newline).
  { unfold paid_line. now rewrite !append_assoc. }
  rewrite Hline.
  destruct (ch !! "status") as [s|]; [|reflexivity].
  unfold ret. destruct (py_str rt s) as [ts|e]; [|reflexivity].
  rewrite file_write_eq, appended_appended.
  unfold log_record, status_line. now rewrite !append_assoc.
Qed.

(** The world [log] leaves is the one it found or that world with some
    text appended to the log. *)
Lemma log_world rt (cd pd ch : pydict) (w : world) :
  (TransactionLogger.log rt cd pd ch w).2 = w
  \/ exists text, (TransactionLogger.log rt cd pd ch w).2 = appended text w.
Proof.
  rewrite log_eq.
  destruct (bool_decide _); [now left|]. right.
  destruct (cd !! "name") as [n|]; [|eauto].
  destruct (py_str rt n) as [tn|]; [|eauto].
  destruct (pd !! "amount") as [a|]; [|eauto].
  destruct (py_str rt a) as [ta|]; [|eauto].
  destruct (ch !! "status") as [s|]; [|eauto].
  destruct (py_str rt s) as [ts|]; eauto.
Qed.




(** A charge without status leaves the first line alone in the log. *)
Example log_without_status :
  TransactionLogger.log demo_runtime customer_data_with_email
    (demo_payment 500 "tok_mastercard") ∅ empty_world =
  (Raise (KeyError "status"),
   appended ("John Doe paid 500" +:+ newline) empty_world).
Proof. reflexivity. Qed.

(** C8, as the code has it: every call of [TransactionLogger.log], whatever
    its arguments, works on the one file at the path [transactions.log],
    which is written in the source: the file at any other path is left as
    it was, and the contents of the log after the call are the contents
    before it followed by the text written. *)
Theorem C8_log_fixed_path_append_only rt (cd pd ch : pydict) (w : world) :
  (forall path : string, path <> "transactions.log" ->
     files (TransactionLogger.log rt cd pd ch w).2 !! path = files w !! path)
  /\ (exists text : string,
     log_text (TransactionLogger.log rt cd pd ch w).2 = log_text w +:+ text).
Proof.
  destruct (log_world rt cd pd ch w) as [-> | [text ->]].
  - split; [reflexivity | exists ""; now rewrite append_empty_r].
  - split.
    + intros path Hp. unfold appended. simpl. now rewrite lookup_insert_ne.
    + exists text. apply log_text_appended.
Qed.

(** C8 with a path chosen by the caller fails: the demonstration call
    writes [transactions.log], and no call, whatever the run-time, the
    arguments and the world, changes the file a caller would have chosen at
    [audit.log]. *)
Lemma C8_caller_cannot_choose_path :
  files (TransactionLogger.log demo_runtime customer_data_with_email
           (demo_payment 500 "tok_mastercard") succeeded empty_world).2
    !! "transactions.log" =
    Some ("John Doe paid 500" +:+ newline +:+
          "Payment status: succeeded" +:+ newline)
  /\ ~ (exists rt cd pd ch w,
          files (TransactionLogger.log rt cd pd ch w).2 !! "audit.log"
          <> files w !! "audit.log").
Proof.
  split; [reflexivity|].
  intros (rt & cd & pd & ch & w & Hneq). apply Hneq.
  destruct (log_world rt cd pd ch w) as [-> | [text ->]]; [reflexivity|].
  unfold appended. simpl. now rewrite lookup_insert_ne.
Qed.

(** ** The payment processor *)

(** Every outcome of [StripePaymentProcessor.process_transaction]. *)
Lemma stripe_process_eq rt (cd pd : pydict) (w : world) :
  StripePaymentProcessor.process_transaction rt cd pd w =
    let key := environ w !! "STRIPE_API_KEY" in
    let w0 := set_stripe_api_key key w in
    match pd !! "amount", pd !! "source", cd !! "name" with
    | None, _, _ => (Raise (KeyError "amount"), w0)
    | Some _, None, _ => (Raise (KeyError "source"), w0)
    | Some _, Some _, None => (Raise (KeyError "name"), w0)
    | Some a, Some s, Some (PStr n) =>
      let req := {| amount := a; currency := "usd"; source := s;
                    description := "Charge for " +:+ n |} in
      let w1 := add_stripe_call (key, req) w0 in
      match charge_create rt key req with
      | Ok charge => (Ok charge, printed "Payment successful" w1)
      | Raise (StripeError detail) =>
        (Raise (StripeError detail),
         printed ("Payment failed: " +:+ detail) w1)
      | Raise e => (Raise e, w1)
      end
    | Some _, Some _, Some _ => (Raise TypeError, w0)
    end.
Proof.
  unfold StripePaymentProcessor.process_transaction, bind, try_except,
    getenv, assign_api_key, dict_getitem, stripe_Charge_create.
  simpl.
  destruct (pd !! "amount") as [a|]; [|reflexivity].
  destruct (pd !! "source") as [s|]; [|reflexivity].
  destruct (cd !! "name") as [[| | |n| |]|]; try reflexivity.
  simpl.
  destruct (charge_create rt _ _) as [charge|[]]; reflexivity.
Qed.



(** The blocked token: the provider's error is raised after one call. *)
Example stripe_blocked_token :
  StripePaymentProcessor.process_transaction demo_runtime
    customer_data_with_email (demo_payment 700 "tok_radarBlock") empty_world =
  (Raise (StripeError "Your card was declined."),
   printed "Payment failed: Your card was declined."
     (add_stripe_call
        (None, {| amount := PInt 700; currency := "usd";
                  source := PStr "tok_radarBlock";
                  description := "Charge for John Doe" |}) empty_world)).
Proof. reflexivity. Qed.

(** ** The service *)

(** Catching an exception to raise it again changes nothing. *)
Lemma try_except_reraise {A} (body : M A) (handles : exn -> bool)
    (w : world) :
  try_except body handles (fun e => raise e) w = body w.
Proof.
  unfold try_except, raise.
  destruct (body w) as [[a|e] w']; [reflexivity|].
  now destruct (handles e).
Qed.

(** The five steps of [PaymentService.process_transaction], for any choice
    of the collaborators. *)
Lemma process_transaction_steps (self : PaymentService.t)
    (cd pd : pydict) (w : world) :
  PaymentService.process_transaction self cd pd w =
    match PaymentService.customer_validator self cd w with
    | (Raise e, w1) => (Raise e, w1)
    | (Ok _, w1) =>
      match PaymentService.payment_validator self pd w1 with
      | (Raise e, w2) => (Raise e, w2)
      | (Ok _, w2) =>
        match PaymentService.payment_processor self cd pd w2 with
        | (Raise e, w3) => (Raise e, w3)
        | (Ok charge, w3) =>
          match PaymentService.notifier self cd w3 with
          | (Raise e, w4) => (Raise e, w4)
          | (Ok _, w4) =>
            match PaymentService.logger self cd pd charge w4 with
            | (Raise e, w5) => (Raise e, w5)
            | (Ok _, w5) => (Ok charge, w5)
            end
          end
        end
      end
    end.
Proof.
  unfold PaymentService.process_transaction.
  unfold bind at 1. rewrite try_except_reraise.
  destruct (PaymentService.customer_validator self cd w) as [[[]|e] w1];
    [|reflexivity].
  unfold bind at 1. rewrite try_except_reraise.
  destruct (PaymentService.payment_validator self pd w1) as [[[]|e] w2];
    [|reflexivity].
  rewrite try_except_reraise. unfold bind, ret.
  destruct (PaymentService.payment_processor self cd pd w2)
    as [[charge|e] w3]; [|reflexivity].
  destruct (PaymentService.notifier self cd w3) as [[[]|e] w4];
    [|reflexivity].
  destruct (PaymentService.logger self cd pd charge w4) as [[[]|e] w5];
    reflexivity.
Qed.

(** C2: [PaymentService.process_transaction] runs customer validation,
    payment validation, charge, notification and logging in this order,
    each step in the world the step before left.  The first step that
    raises gives the outcome: its exception, in the world it left, so no
    later step has run; an exception of the notifier ends the call before
    the logger is reached.  When no step raises, the result is the charge
    the charge step returned. *)
Theorem C2_fixed_sequence_first_failure (self : PaymentService.t)
    (cd pd : pydict) (w : world) :
  let run := PaymentService.process_transaction self cd pd w in
  (forall e w1,
     PaymentService.customer_validator self cd w = (Raise e, w1) ->
     run = (Raise e, w1))
  /\ (forall w1 e w2,
     PaymentService.customer_validator self cd w = (Ok tt, w1) ->
     PaymentService.payment_validator self pd w1 = (Raise e, w2) ->
     run = (Raise e, w2))
  /\ (forall w1 w2 e w3,
     PaymentService.customer_validator self cd w = (Ok tt, w1) ->
     PaymentService.payment_validator self pd w1 = (Ok tt, w2) ->
     PaymentService.payment_processor self cd pd w2 = (Raise e, w3) ->
     run = (Raise e, w3))
  /\ (forall w1 w2 charge w3 e w4,
     PaymentService.customer_validator self cd w = (Ok tt, w1) ->
     PaymentService.payment_validator self pd w1 = (Ok tt, w2) ->
     PaymentService.payment_processor self cd pd w2 = (Ok charge, w3) ->
     PaymentService.notifier self cd w3 = (Raise e, w4) ->
     run = (Raise e, w4))
  /\ (forall w1 w2 charge w3 w4 e w5,
     PaymentService.customer_validator self cd w = (Ok tt, w1) ->
     PaymentService.payment_validator self pd w1 = (Ok tt, w2) ->
     PaymentService.payment_processor self cd pd w2 = (Ok charge, w3) ->
     PaymentService.notifier self cd w3 = (Ok tt, w4) ->
     PaymentService.logger self cd pd charge w4 = (Raise e, w5) ->
     run = (Raise e, w5))
  /\ (forall w1 w2 charge w3 w4 w5,
     PaymentService.customer_validator self cd w = (Ok tt, w1) ->
     PaymentService.payment_validator self pd w1 = (Ok tt, w2) ->
     PaymentService.payment_processor self cd pd w2 = (Ok charge, w3) ->
     PaymentService.notifier self cd w3 = (Ok tt, w4) ->
     PaymentService.logger self cd pd charge w4 = (Ok tt, w5) ->
     run = (Ok charge, w5)).
Proof.
  intros run. subst run. rewrite process_transaction_steps.
  repeat split; intros;
    repeat match goal with
    | H : _ = (_, _) |- _ => rewrite H; clear H
    end; reflexivity.
Qed.

(** A customer whose contact info is a number passes the validator, is
    charged, and makes the notifier raise: the call ends with that
    [TypeError], one charge made and nothing logged. *)
Example notifier_failure_skips_log :
  let out :=
    PaymentService.process_transaction (PaymentService.new demo_runtime)
      customer_data_odd_contact (demo_payment 500 "tok_mastercard")
      empty_world in
  out.1 = Raise TypeError
  /\ length (stripe_calls out.2) = 1
  /\ files out.2 = ∅.
Proof. repeat split. Qed.

(** The three runs of the demonstration script. *)
Example scenario_A :
  PaymentService.process_transaction (PaymentService.new demo_runtime)
    customer_data_with_email (demo_payment 500 "tok_mastercard")
    empty_world =
  (Ok succeeded,
   appended ("John Doe paid 500" +:+ newline +:+
             "Payment status: succeeded" +:+ newline)
     (printed "Email sent to e@mail.com"
        (printed "Payment successful"
           (add_stripe_call
              (None, {| amount := PInt 500; currency := "usd";
                        source := PStr "tok_mastercard";
                        description := "Charge for John Doe" |})
              empty_world)))).
Proof. reflexivity. Qed.

Example scenario_B :
  let out :=
    PaymentService.process_transaction (PaymentService.new demo_runtime)
      customer_data_with_phone (demo_payment 500 "tok_mastercard")
      empty_world in
  out.1 = Ok succeeded
  /\ emails_sent out.2 = 0 /\ sms_sent out.2 = 1
  /\ log_text out.2 = "Platzi Python paid 500" +:+ newline +:+
                      "Payment status: succeeded" +:+ newline.
Proof. repeat split. Qed.

Example scenario_C :
  let out :=
    PaymentService.process_transaction (PaymentService.new demo_runtime)
      customer_data_with_email (demo_payment 700 "tok_radarBlock")
      empty_world in
  out.1 = Raise (StripeError "Your card was declined.")
  /\ files out.2 = ∅
  /\ emails_sent out.2 = 0 /\ sms_sent out.2 = 0.
Proof. repeat split. Qed.

(** The charge step writes no file and uses no notification channel. *)
Lemma stripe_process_quiet rt (cd pd : pydict) (w : world) :
  let w' := (StripePaymentProcessor.process_transaction rt cd pd w).2 in
  files w' = files w
  /\ emails_sent w' = emails_sent w
  /\ sms_sent w' = sms_sent w.
Proof.
  rewrite stripe_process_eq. cbv zeta.
  destruct (pd !! "amount") as [a|]; [|now repeat split].
  destruct (pd !! "source") as [s|]; [|now repeat split].
  destruct (cd !! "name") as [[| | |n| |]|]; try now repeat split.
  destruct (charge_create rt _ _) as [charge|[]]; simpl;
    rewrite ?emails_sent_printed, ?sms_sent_printed; now repeat split.
Qed.

(** A failed validation prints one diagnostic entry, which is no
    notification, and writes no file. *)
Lemma customer_validate_quiet (cd : pydict) (w : world) :
  let out := CustomerValidator.validate cd w in
  (out = (Ok tt, w) \/ exists e, out.1 = Raise e)
  /\ files out.2 = files w
  /\ emails_sent out.2 = emails_sent w
  /\ sms_sent out.2 = sms_sent w.
Proof.
  rewrite customer_validate_eq. cbv zeta.
  destruct (truthy (dict_get cd "name")); simpl;
    [destruct (truthy (dict_get cd "contact_info")); simpl|];
    rewrite ?emails_sent_printed, ?sms_sent_printed; simpl; eauto 6.
Qed.

Lemma payment_validate_quiet (pd : pydict) (w : world) :
  let out := PaymentDataValidator.validate pd w in
  (out = (Ok tt, w) \/ exists e, out.1 = Raise e)
  /\ files out.2 = files w
  /\ emails_sent out.2 = emails_sent w
  /\ sms_sent out.2 = sms_sent w.
Proof.
  rewrite payment_validate_eq. cbv zeta.
  destruct (truthy (dict_get pd "source")); simpl;
    rewrite ?emails_sent_printed, ?sms_sent_printed; simpl; eauto 6.
Qed.

(** Either a charge was obtained or nothing was produced. *)
Lemma service_charge_or_nothing rt (cd pd : pydict) (w : world) :
  charge_obtained rt cd pd w
  \/ nothing_produced
       (PaymentService.process_transaction (PaymentService.new rt) cd pd w)
       w.
Proof.
  rewrite process_transaction_steps. simpl.
  destruct (customer_validate_quiet cd w) as ([Hc | [e He]] & Hcq).
  2:{ right. destruct (CustomerValidator.validate cd w) as [[[]|e'] w1];
        [discriminate He|]. split; [eauto | exact Hcq]. }
  rewrite Hc.
  destruct (payment_validate_quiet pd w) as ([Hp | [e He]] & Hpq).
  2:{ right. destruct (PaymentDataValidator.validate pd w) as [[[]|e'] w1];
        [discriminate He|]. split; [eauto | exact Hpq]. }
  rewrite Hp.
  pose proof (stripe_process_quiet rt cd pd w) as Hsq. cbv zeta in Hsq.
  destruct (StripePaymentProcessor.process_transaction rt cd pd w)
    as [[charge|e] w3] eqn:Hs.
  - left. repeat split; eauto.
  - right. split; [eauto | exact Hsq].
Qed.

Lemma fails_not_ok {A} (m : M A) (w : world) (a : A) (w' : world) :
  fails m w -> m w = (Ok a, w') -> False.
Proof. intros (e & w1 & He) Hok. congruence. Qed.

(** C1: for every customer_data and payment_data, if customer validation,
    payment validation or the charge step fails, then
    [PaymentService.process_transaction] raises, no file (so no log entry)
    is written and no e-mail or SMS is dispatched. *)
Theorem C1_no_charge_no_log_no_notification rt (cd pd : pydict)
    (w : world) :
  fails (CustomerValidator.validate cd) w
  \/ fails (PaymentDataValidator.validate pd) w
  \/ fails (StripePaymentProcessor.process_transaction rt cd pd) w ->
  let out :=
    PaymentService.process_transaction (PaymentService.new rt) cd pd w in
  (exists e, out.1 = Raise e)
  /\ files out.2 = files w
  /\ emails_sent out.2 = emails_sent w
  /\ sms_sent out.2 = sms_sent w.
Proof.
  intros Hfail out. subst out.
  destruct (service_charge_or_nothing rt cd pd w)
    as [(Hc & Hp & charge & w' & Hs) | Hnone]; [|exact Hnone].
  exfalso. destruct Hfail as [Hf | [Hf | Hf]];
    eauto using fails_not_ok.
Qed.

(** C1 on the blocked token of the demonstration: the call raises, the log
    does not exist and nothing was dispatched. *)
Lemma C1_blocked_token :
  (exists e,
     (PaymentService.process_transaction (PaymentService.new demo_runtime)
        customer_data_with_email (demo_payment 700 "tok_radarBlock")
        empty_world).1 = Raise e)
  /\ files
       (PaymentService.process_transaction (PaymentService.new demo_runtime)
          customer_data_with_email (demo_payment 700 "tok_radarBlock")
          empty_world).2 = ∅
  /\ emails_sent
       (PaymentService.process_transaction (PaymentService.new demo_runtime)
          customer_data_with_email (demo_payment 700 "tok_radarBlock")
          empty_world).2 = 0
  /\ sms_sent
       (PaymentService.process_transaction (PaymentService.new demo_runtime)
          customer_data_with_email (demo_payment 700 "tok_radarBlock")
          empty_world).2 = 0.
Proof.
  apply (C1_no_charge_no_log_no_notification demo_runtime
           customer_data_with_email (demo_payment 700 "tok_radarBlock")
           empty_world).
  right. right. eexists. eexists. reflexivity.
Defined.

(** The other direction of C1: a changed file or one more notification
    means that a charge was obtained. *)
Lemma produced_only_after_charge rt (cd pd : pydict) (w : world) :
  let out :=
    PaymentService.process_transaction (PaymentService.new rt) cd pd w in
  files out.2 <> files w
  \/ emails_sent out.2 <> emails_sent w
  \/ sms_sent out.2 <> sms_sent w ->
  charge_obtained rt cd pd w.
Proof.
  intros out Hchanged. subst out.
  destruct (service_charge_or_nothing rt cd pd w)
    as [Hc | (_ & Hf & He & Hs)]; [exact Hc|].
  exfalso. destruct Hchanged as [H | [H | H]]; congruence.
Qed.

(** C10: on every customer_data without the key [contact_info],
    [Notifier.send_confirmation] raises [KeyError] for that key and does
    nothing else.  [PaymentService.process_transaction] never lets such a
    customer reach the notifier: it ends in customer validation, with a
    [ValueError] and only the diagnostic entry printed. *)
Theorem C10_unguarded_contact_info rt (cd : pydict) (w : world) :
  cd !! "contact_info" = None ->
  Notifier.send_confirmation rt cd w = (Raise (KeyError "contact_info"), w)
  /\ forall pd : pydict,
       exists msg : string,
         CustomerValidator.validate cd w =
           (Raise (ValueError msg), printed msg w)
         /\ PaymentService.process_transaction (PaymentService.new rt)
              cd pd w = (Raise (ValueError msg), printed msg w).
Proof.
  intros Hnone. split.
  - unfold Notifier.send_confirmation, bind, dict_getitem.
    now rewrite Hnone.
  - intros pd. rewrite process_transaction_steps. simpl.
    rewrite customer_validate_eq.
    assert (Hget : dict_get cd "contact_info" = PNone)
      by (unfold dict_get; now rewrite Hnone).
    rewrite Hget.
    destruct (truthy (dict_get cd "name")); simpl; eauto.
Qed.

(** C10 on a customer with a name only. *)
Lemma C10_name_only :
  Notifier.send_confirmation demo_runtime customer_data_no_contact
    empty_world = (Raise (KeyError "contact_info"), empty_world)
  /\ PaymentService.process_transaction (PaymentService.new demo_runtime)
       customer_data_no_contact (demo_payment 500 "tok_mastercard")
       empty_world =
     (Raise (ValueError "Invalid customer data: missing contact info"),
      printed "Invalid customer data: missing contact info" empty_world).
Proof.
  destruct (C10_unguarded_contact_info demo_runtime customer_data_no_contact
              empty_world eq_refl) as [Hk _].
  split; [exact Hk | reflexivity].
Defined.

(** ** Further properties of the notifier *)

(** [send_confirmation] on a contact info that is not a dictionary. *)
Lemma send_confirmation_other rt (cd : pydict) (v : pyval) (w : world) :
  cd !! "contact_info" = Some v ->
  (forall d, v <> PDict d) ->
  Notifier.send_confirmation rt cd w =
    (if quiet_contact v then Ok tt else Raise TypeError, w).
Proof.
  intros Hv Hnd. unfold Notifier.send_confirmation, dict_getitem.
  rewrite Hv. unfold bind, ret, raise.
  destruct v as [| b | z | s | l | d]; try reflexivity.
  - unfold quiet_contact, mentions. simpl.
    destruct (bool_decide (is_Some (String.index 0 "email" s)));
      [reflexivity|].
    simpl. now destruct (bool_decide (is_Some (String.index 0 "phone" s))).
  - unfold quiet_contact, mentions. simpl.
    destruct (existsb (is_str "email") l); [reflexivity|].
    simpl. now destruct (existsb (is_str "phone") l).
  - now destruct (Hnd d).
Qed.



(** Every outcome of [send_confirmation]. *)
Lemma send_confirmation_cases rt (cd : pydict) (w : world) :
  let out := Notifier.send_confirmation rt cd w in
  (cd !! "contact_info" = None /\ out = (Raise (KeyError "contact_info"), w))
  \/ out = (Raise TypeError, w)
  \/ out = (Ok tt, w)
  \/ (exists entry, out = (Ok tt, printed entry w)
       /\ (is_email entry = true \/ is_sms entry = true))
  \/ (exists a e, py_str rt a = Raise e
       /\ out = (Raise e, printed email_started w))
  \/ (exists p e, py_str rt p = Raise e /\ out = (Raise e, w)).
Proof.
  cbv zeta.
  destruct (cd !! "contact_info") as [v|] eqn:Hv.
  - destruct v as [| b | z | s | l | ci].
    1-5: rewrite (send_confirmation_other _ _ _ _ Hv) by discriminate;
      match goal with |- context [quiet_contact ?v] =>
        destruct (quiet_contact v) end; auto.
    rewrite (send_confirmation_dict _ _ _ _ Hv).
    unfold notify_result, notified.
    destruct (ci !! "email") as [a|].
    + destruct (py_str rt a) as [text|e] eqn:Ha.
      * do 3 right. left. exists (email_entry text).
        split; [reflexivity | left; apply is_email_email_entry].
      * do 4 right. left. eauto.
    + destruct (ci !! "phone") as [p|]; [|auto].
      destruct (py_str rt p) as [text|e] eqn:Hp.
      * do 3 right. left. exists (sms_entry text).
        split; [reflexivity | right; apply is_sms_sms_entry].
      * do 5 right. eauto.
  - left. split; [reflexivity|].
    unfold Notifier.send_confirmation, bind, dict_getitem.
    now rewrite Hv.
Qed.


(** ** Further properties of the payment processor *)


(** X3: whatever its arguments and its outcome,
    [StripePaymentProcessor.process_transaction] leaves [stripe.api_key]
    equal to the value of [STRIPE_API_KEY] in the environment ([None] when
    the variable is not set), changes neither the environment nor any file,
    and sends at most one request, under that key and in the currency
    [usd]. *)
Theorem X3_processor_key_and_single_request rt (cd pd : pydict)
    (w : world) :
  let out := StripePaymentProcessor.process_transaction rt cd pd w in
  stripe_api_key out.2 = env_key w
  /\ environ out.2 = environ w
  /\ files out.2 = files w
  /\ (stripe_calls out.2 = stripe_calls w
      \/ exists req,
           stripe_calls out.2 = (stripe_calls w ++ [(env_key w, req)])%list
           /\ currency req = "usd").
Proof.
  rewrite stripe_process_eq. cbv zeta. unfold env_key.
  destruct (pd !! "amount") as [a|]; [|now repeat split; auto].
  destruct (pd !! "source") as [s|]; [|now repeat split; auto].
  destruct (cd !! "name") as [[| | |n| |]|]; try (now repeat split; auto).
  destruct (charge_create rt _ _) as [charge|[]]; simpl;
    (repeat split; right; eexists; split; reflexivity).
Qed.

(** X4: when [amount], [source] or [name] is missing, or the name is not a
    string, the processor raises before any request is sent: [KeyError]
    for the first missing key in the order amount, source, name, or
    [TypeError] for the name.  It has set the key and done nothing else:
    nothing is printed and the provider is not called. *)
Theorem X4_processor_fails_before_request rt (cd pd : pydict) (w : world) :
  let out := StripePaymentProcessor.process_transaction rt cd pd w in
  let w0 := set_stripe_api_key (env_key w) w in
  (pd !! "amount" = None -> out = (Raise (KeyError "amount"), w0))
  /\ (is_Some (pd !! "amount") -> pd !! "source" = None ->
      out = (Raise (KeyError "source"), w0))
  /\ (is_Some (pd !! "amount") -> is_Some (pd !! "source") ->
      cd !! "name" = None -> out = (Raise (KeyError "name"), w0))
  /\ (is_Some (pd !! "amount") -> is_Some (pd !! "source") ->
      forall v, cd !! "name" = Some v -> (forall n, v <> PStr n) ->
      out = (Raise TypeError, w0)).
Proof.
  rewrite stripe_process_eq. cbv zeta. unfold env_key.
  split; [| split; [| split]].
  - now intros ->.
  - intros [a ->] ->. reflexivity.
  - intros [a ->] [s ->] ->. reflexivity.
  - intros [a ->] [s ->] v -> Hns.
    destruct v as [| | |n| |]; try reflexivity. now destruct (Hns n).
Qed.

Example processor_without_amount :
  StripePaymentProcessor.process_transaction demo_runtime
    customer_data_with_email (<["source" := PStr "tok_mastercard"]> ∅)
    empty_world = (Raise (KeyError "amount"), empty_world).
Proof. reflexivity. Qed.


(** X5 on the blocked token: the entry carries the provider's detail. *)
Example processor_diagnostic_blocked :
  stdout
    (StripePaymentProcessor.process_transaction demo_runtime
       customer_data_with_email (demo_payment 700 "tok_radarBlock")
       empty_world).2 = ["Payment failed: Your card was declined."].
Proof. reflexivity. Qed.

(** ** Further properties of the transaction logger *)




(** The name is converted before the amount is looked up: a name that
    cannot be converted decides the exception even without an amount. *)
Example log_long_name_without_amount :
  TransactionLogger.log demo_runtime (<["name" := long_int]> ∅) ∅ succeeded
    empty_world =
  (Raise (ValueError int_str_limit), appended "" empty_world).
Proof. reflexivity. Qed.



(** ** Further properties of the service *)




(** After both validations passed, the service is the charge step, the
    notifier and the logger in a row. *)
Lemma service_validated rt (cd pd : pydict) (w : world) :
  truthy (dict_get cd "name") = true ->
  truthy (dict_get cd "contact_info") = true ->
  truthy (dict_get pd "source") = true ->
  PaymentService.process_transaction (PaymentService.new rt) cd pd w =
    match StripePaymentProcessor.process_transaction rt cd pd w with
    | (Raise e, w3) => (Raise e, w3)
    | (Ok charge, w3) =>
      match Notifier.send_confirmation rt cd w3 with
      | (Raise e, w4) => (Raise e, w4)
      | (Ok _, w4) =>
        match TransactionLogger.log rt cd pd charge w4 with
        | (Raise e, w5) => (Raise e, w5)
        | (Ok _, w5) => (Ok charge, w5)
        end
      end
    end.
Proof.
  intros Hn Hc Hs. rewrite process_transaction_steps.
  unfold PaymentService.new.
  cbn [PaymentService.customer_validator PaymentService.payment_validator
       PaymentService.payment_processor PaymentService.notifier
       PaymentService.logger].
  rewrite customer_validate_eq, Hn, Hc. cbn [negb].
  now rewrite payment_validate_eq, Hs.
Qed.





(** The same payment with an amount that cannot be converted: the
    customer is charged and notified, and the service raises when the
    logger converts the amount, with an empty log. *)
Example service_long_amount :
  PaymentService.process_transaction (PaymentService.new demo_runtime)
    customer_data_with_email long_payment empty_world =
  (Raise (ValueError int_str_limit),
   appended ""
     (printed "Email sent to e@mail.com"
        (charged (request_for "John Doe" long_int (PStr "tok_mastercard"))
           empty_world))).
Proof. reflexivity. Qed.

(** X9: the validators do not ask for [amount], so a payment without it
    passes both validations and fails in the charge step: the service
    raises [KeyError] for [amount], an exception that is neither a
    [ValueError] nor a [StripeError]; the key was set from the environment
    and nothing else happened: no request, no notification, no log. *)
Theorem X9_missing_amount_escapes_validation rt (cd pd : pydict)
    (w : world) :
  present_nonempty cd "name" ->
  present_nonempty cd "contact_info" ->
  present_nonempty pd "source" ->
  pd !! "amount" = None ->
  PaymentDataValidator.validate pd w = (Ok tt, w)
  /\ PaymentService.process_transaction (PaymentService.new rt) cd pd w =
       (Raise (KeyError "amount"), set_stripe_api_key (env_key w) w).
Proof.
  intros Hn%present_nonempty_get Hc%present_nonempty_get
         Hs%present_nonempty_get Ha.
  split.
  - now rewrite payment_validate_eq, Hs.
  - rewrite service_validated by assumption.
    now rewrite stripe_process_eq, Ha.
Qed.

(** X9 on the first customer of the script and a payment with a source
    only. *)
Lemma X9_source_only_payment :
  PaymentService.process_transaction (PaymentService.new demo_runtime)
    customer_data_with_email (<["source" := PStr "tok_mastercard"]> ∅)
    empty_world = (Raise (KeyError "amount"), empty_world).
Proof.
  assert (Hn : present_nonempty customer_data_with_email "name")
    by (exists (PStr "John Doe"); split; reflexivity).
  assert (Hc : present_nonempty customer_data_with_email "contact_info")
    by (exists (PDict (<["email" := PStr "e@mail.com"]> ∅));
        split; reflexivity).
  assert (Hs : present_nonempty
                 (<["source" := PStr "tok_mastercard"]> ∅ : pydict) "source")
    by (exists (PStr "tok_mastercard"); split; reflexivity).
  destruct (X9_missing_amount_escapes_validation demo_runtime
              customer_data_with_email
              (<["source" := PStr "tok_mastercard"]> ∅) empty_world
              Hn Hc Hs eq_refl) as [_ H].
  exact H.
Defined.










(** ** Properties of the script *)







(** A first charge whose status cannot be converted ends the script in
    the logger of the first payment, after the customer was charged and
    notified. *)
Example script_with_long_status :
  (main {| container_str := fun _ => Ok "";
           charge_create := fun _ _ => Ok (<["status" := long_int]> ∅) |}
     (fun _ => "") empty_world).1 = Raise (ValueError int_str_limit).
Proof. reflexivity. Qed.

(** ** The log under the service and the script *)

Lemma log_extended_same_files (w w' : world) :
  files w' = files w -> log_extended w w'.
Proof.
  intros Hf. split.
  - exists "". unfold log_text. now rewrite Hf, append_empty_r.
  - intros path _. now rewrite Hf.
Qed.

Lemma log_extended_appended (text : string) (w w' : world) :
  files w' = files w -> log_extended w (appended text w').
Proof.
  intros Hf. split.
  - exists text. rewrite log_text_appended. unfold log_text. now rewrite Hf.
  - intros path Hp. unfold appended. simpl.
    now rewrite lookup_insert_ne, Hf.
Qed.

Lemma log_log_extended rt (cd pd ch : pydict) (w w' : world) :
  files w' = files w ->
  log_extended w (TransactionLogger.log rt cd pd ch w').2.
Proof.
  intros Hf.
  destruct (log_world rt cd pd ch w') as [-> | [text ->]].
  - now apply log_extended_same_files.
  - now apply log_extended_appended.
Qed.

(** The service only ever appends to the log. *)
Lemma service_log_extended rt (cd pd : pydict) (w : world) :
  log_extended w
    (PaymentService.process_transaction (PaymentService.new rt) cd pd w).2.
Proof.
  rewrite process_transaction_steps. unfold PaymentService.new.
  cbn [PaymentService.customer_validator PaymentService.payment_validator
       PaymentService.payment_processor PaymentService.notifier
       PaymentService.logger].
  destruct (customer_validate_quiet cd w) as (_ & Hf1 & _).
  destruct (CustomerValidator.validate cd w) as [[[]|e1] w1];
    cbn [fst snd] in *; [|now apply log_extended_same_files].
  destruct (payment_validate_quiet pd w1) as (_ & Hf2 & _).
  destruct (PaymentDataValidator.validate pd w1) as [[[]|e2] w2];
    cbn [fst snd] in *;
    [|apply log_extended_same_files; congruence].
  destruct (stripe_process_quiet rt cd pd w2) as (Hf3 & _).
  destruct (StripePaymentProcessor.process_transaction rt cd pd w2)
    as [[charge|e3] w3]; cbn [fst snd] in *;
    [|apply log_extended_same_files; congruence].
  assert (Hf : files w3 = files w) by congruence.
  destruct (send_confirmation_cases rt cd w3)
    as [[_ H] | [H | [H | [(entry & H & _)
        | [(x & ex & _ & H) | (x & ex & _ & H)]]]]];
    cbv zeta in H; rewrite H; cbn [fst snd];
    try (now apply log_extended_same_files).
  - pose proof (log_log_extended rt cd pd charge w w3 Hf) as Hl.
    destruct (TransactionLogger.log rt cd pd charge w3) as [[[]|e5] w5];
      exact Hl.
  - pose proof (log_log_extended rt cd pd charge w (printed entry w3) Hf)
      as Hl.
    destruct (TransactionLogger.log rt cd pd charge (printed entry w3))
      as [[[]|e5] w5]; exact Hl.
Qed.

(** X14: whatever its arguments and its outcome, the service never
    rewrites the log and never touches another file: the contents of
    [transactions.log] after the call are its contents before the call
    followed by what the call wrote, and the file at any other path is as
    it was. *)
Theorem X14_service_appends_only rt (cd pd : pydict) (w : world) :
  let out :=
    PaymentService.process_transaction (PaymentService.new rt) cd pd w in
  (exists text, log_text out.2 = log_text w +:+ text)
  /\ forall path : string, path <> "transactions.log" ->
       files out.2 !! path = files w !! path.
Proof. exact (service_log_extended rt cd pd w). Qed.





(** X13 on a provider that blocks every token: the script ends at the
    first payment. *)
Example script_with_blocking_provider :
  main {| container_str := fun _ => Ok "";
          charge_create := fun _ _ => Raise (StripeError "blocked") |}
    (fun _ => "") empty_world =
  (Raise (StripeError "blocked"),
   printed "Payment failed: blocked"
     (add_stripe_call (None, first_request) empty_world)).
Proof. reflexivity. Qed.
